(** * WarrantyVault AI microservice: OCR and structured field extraction

    A shallow embedding of [ai-service/app.py].

    Conventions of the embedding.
    - A Python exception is a value of [exn]; code that may raise returns
      [Result A = exn + A].  Code that also reads or writes the module
      globals [donut_processor] / [donut_model] lives in the monad [M],
      which threads the globals and keeps every assignment made before a
      raise, as Python does.
    - Calls into PaddleOCR, pdf2image, PIL, torch and transformers are
      external.  The outcome of each such call is supplied by an
      environment record ([Env], [IO]); every theorem quantifies over all
      environments.
    - Python floats are the binary64 floats of [PrimFloat], with the
      format's own rounding in every operation.  [sum] adds from the
      left, as CPython did up to version 3.11.
    - Characters of a [string] are read as code points below 256.
    - [logger] calls only write to the logging sink and never change
      control flow or results; they are left out. *)

From Stdlib Require Import Ascii String ZArith QArith Qround Lia.
From Stdlib Require Import Floats Uint63.
From stdpp Require Import gmap strings list.

#[local] Set Warnings "-clear-no-such-hyp".
#[local] Set Warnings "-inexact-float".

Local Open Scope string_scope.
Local Open Scope Z_scope.

(** ** Python string operations used by the service *)

Module PyStr.

Definition newline : ascii := Ascii.ascii_of_nat 10.
Definition NL : string := String newline EmptyString.

(** [sep.join(l)] *)
Fixpoint join (sep : string) (l : list string) : string :=
  match l with
  | [] => EmptyString
  | [x] => x
  | x :: rest => x +:+ sep +:+ join sep rest
  end.



(** Truthiness of a [str]: non-empty. *)
Definition truthy (s : string) : bool :=
  match s with EmptyString => false | String _ _ => true end.

(** [s.replace(old, new)] for a non-empty [old]: scan left to right,
    [skip] counts the characters of the current match still to drop. *)
Fixpoint replace_from (old new : string) (skip : nat) (s : string) : string :=
  match s with
  | EmptyString => EmptyString
  | String c s' =>
      match skip with
      | S k => replace_from old new k s'
      | O =>
          if String.prefix old s
          then new +:+ replace_from old new (Nat.pred (String.length old)) s'
          else String c (replace_from old new 0 s')
      end
  end.

(** [s.replace("", new)] puts [new] before every character and at the end. *)
Fixpoint intersperse_all (new s : string) : string :=
  match s with
  | EmptyString => new
  | String c s' => new +:+ String c (intersperse_all new s')
  end.

Definition replace (s old new : string) : string :=
  match old with
  | EmptyString => intersperse_all new s
  | String _ _ => replace_from old new 0 s
  end.

(** [str.isspace] on a single code point below 256. *)
Definition is_space (c : ascii) : bool :=
  let n := Ascii.nat_of_ascii c in
  ((9 <=? n) && (n <=? 13) || (28 <=? n) && (n <=? 32)
   || (n =? 133) || (n =? 160))%nat.

Fixpoint lstrip (s : string) : string :=
  match s with
  | EmptyString => EmptyString
  | String c s' => if is_space c then lstrip s' else s
  end.

Fixpoint rstrip (s : string) : string :=
  match s with
  | EmptyString => EmptyString
  | String c s' =>
      match rstrip s' with
      | EmptyString => if is_space c then EmptyString else String c EmptyString
      | r => String c r
      end
  end.

(** [s.strip()] *)
Definition strip (s : string) : string := rstrip (lstrip s).

(** The text after the first [">"] of [s], if no newline comes before it:
    what remains once the lazy [.*?>] has matched. *)
Fixpoint after_close (s : string) : option string :=
  match s with
  | EmptyString => None
  | String c s' =>
      if Ascii.eqb c ">" then Some s'
      else if Ascii.eqb c newline then None
      else after_close s'
  end.

(** [re.sub(r"<.*?>", "", s, count=1)]: delete the leftmost match of
    ["<"], then as few non-newline characters as possible, then [">"]. *)
Fixpoint re_sub_tag_once (s : string) : string :=
  match s with
  | EmptyString => EmptyString
  | String c s' =>
      if Ascii.eqb c "<"
      then match after_close s' with
           | Some rest => rest
           | None => String c (re_sub_tag_once s')
           end
      else String c (re_sub_tag_once s')
  end.

(** The last character of a non-empty string [String c s]. *)
Fixpoint last_char (c : ascii) (s : string) : ascii :=
  match s with
  | EmptyString => c
  | String c' s' => last_char c' s'
  end.

(** [sub in s] *)
Fixpoint contains (sub s : string) : bool :=
  String.prefix sub s ||
  match s with
  | EmptyString => false
  | String _ s' => contains sub s'
  end.

End PyStr.

(** ** Exceptions and the two monads *)

Inductive exn : Type :=
| Exception (msg : string)
| HTTPException (status_code : Z) (detail : string).

Definition Result (A : Type) : Type := (exn + A)%type.

Module Res.
Definition ret {A} (a : A) : Result A := inr a.
Definition raise {A} (e : exn) : Result A := inl e.
Definition bind {A B} (m : Result A) (k : A -> Result B) : Result B :=
  match m with
  | inl e => inl e
  | inr a => k a
  end.
(** [try: body  except Exception as e: handler(e)] *)
Definition try_except {A} (body : Result A) (handler : exn -> Result A) : Result A :=
  match body with
  | inl e => handler e
  | inr a => inr a
  end.
End Res.

Declare Scope res_scope.
Delimit Scope res_scope with res.
Notation "'do' x <- c1 ;; c2" :=
  (Res.bind c1 (fun x => c2))
    (at level 60, x pattern, c1 at next level, right associativity) : res_scope.

(** ** Handles of the structured field model *)

Inductive Device : Type := Cpu | Cuda.

(** What the service reads from [processor.tokenizer]. *)
Record DonutProcessor : Type := {
  eos_token : string;
  pad_token : string;
  pad_token_id : Z;
  eos_token_id : Z;
  unk_token_id : Z
}.

(** [device] is where the weights live; [max_position_embeddings] is
    [model.decoder.config.max_position_embeddings]. *)
Record VisionEncoderDecoderModel : Type := {
  device : Device;
  max_position_embeddings : Z
}.

Definition to_device (d : Device) (m : VisionEncoderDecoderModel) : VisionEncoderDecoderModel :=
  {| device := d; max_position_embeddings := max_position_embeddings m |}.

(** [x is None] *)
Definition is_none {A} (o : option A) : bool :=
  match o with None => true | Some _ => false end.

(** The module globals of lines 46-47. *)
Record Globals : Type := {
  donut_processor : option DonutProcessor;
  donut_model : option VisionEncoderDecoderModel
}.

(** The state at import time: [donut_processor = None], [donut_model = None]. *)
Definition initial_globals : Globals :=
  {| donut_processor := None; donut_model := None |}.

(** The guard of line 57. *)
Definition needs_load (g : Globals) : bool :=
  is_none (donut_processor g) || is_none (donut_model g).

Definition M (A : Type) : Type := Globals -> Globals * Result A.

Module St.
Definition ret {A} (a : A) : M A := fun g => (g, inr a).
Definition raise {A} (e : exn) : M A := fun g => (g, inl e).
Definition bind {A B} (m : M A) (k : A -> M B) : M B :=
  fun g => match m g with
           | (g', inl e) => (g', inl e)
           | (g', inr a) => k a g'
           end.
Definition lift {A} (r : Result A) : M A := fun g => (g, r).
Definition get : M Globals := fun g => (g, inr g).
(** [try: body  except Exception as e: handler(e)]; assignments made by
    [body] before it raised stay in place. *)
Definition try_except {A} (body : M A) (handler : exn -> M A) : M A :=
  fun g => match body g with
           | (g', inl e) => handler e g'
           | (g', inr a) => (g', inr a)
           end.
(** Using a handle that is [None] raises. *)
Definition some {A} (o : option A) : M A :=
  match o with
  | Some a => ret a
  | None => raise (Exception "'NoneType' object is not callable")
  end.
End St.

Declare Scope st_scope.
Delimit Scope st_scope with st.
Notation "'do' x <- c1 ;; c2" :=
  (St.bind c1 (fun x => c2))
    (at level 60, x pattern, c1 at next level, right associativity) : st_scope.

Definition set_donut_processor (p : DonutProcessor) : M unit :=
  fun g => ({| donut_processor := Some p; donut_model := donut_model g |}, inr tt).

Definition set_donut_model (m : VisionEncoderDecoderModel) : M unit :=
  fun g => ({| donut_processor := donut_processor g; donut_model := Some m |}, inr tt).

(** The pretrained artifact of lines 60-61. *)
Definition DONUT_ARTIFACT : string := "naver-clova-ix/donut-base-finetuned-docvqa".

(** The keyword arguments of [model.generate] (lines 161-172). *)
Record GenerateKwargs (Tensor : Type) : Type := {
  decoder_input_ids : Tensor;
  max_length : Z;
  early_stopping : bool;
  gen_pad_token_id : Z;
  gen_eos_token_id : Z;
  use_cache : bool;
  num_beams : Z;
  bad_words_ids : list (list Z);
  return_dict_in_generate : bool
}.
Arguments decoder_input_ids {Tensor} _.
Arguments max_length {Tensor} _.
Arguments num_beams {Tensor} _.
Arguments bad_words_ids {Tensor} _.

(** The fixed question of each field (lines 134-141), a [dict]. *)
Definition prompt_map : gmap string string :=
  list_to_map
    [ ("product_name", "What is the product name?");
      ("order_id", "What is the order ID?");
      ("invoice_number", "What is the invoice number?");
      ("total_amount", "What is the total amount?");
      ("purchase_date", "What is the purchase date?");
      ("retailer", "What is the retailer name?") ].

(** [prompt_map.get(target_field, f"What is the {target_field}?")] *)
Definition prompt_for (target_field : string) : string :=
  default ("What is the " +:+ target_field +:+ "?") (prompt_map !! target_field).

(** The decoder seed of line 153. *)
Definition decoder_seed (prompt : string) : string :=
  "<s_docvqa><s_question>" +:+ prompt +:+ "</s_question><s_answer>".

(** Lines 176-177: drop every end-of-sequence and padding marker, delete
    the first tag, strip. *)
Definition clean_sequence (processor : DonutProcessor) (sequence : string) : string :=
  let sequence :=
    PyStr.replace (PyStr.replace sequence (eos_token processor) "")
                  (pad_token processor) "" in
  PyStr.strip (PyStr.re_sub_tag_once sequence).

(** The field list of line 190. *)
Definition fields : list string :=
  [ "product_name"; "order_id"; "invoice_number"; "total_amount";
    "purchase_date"; "retailer" ].

Section Donut.

Context {Image Tensor : Type}.

(** Outcomes of the external calls made while one field is extracted. *)
Record Env : Type := {
  DonutProcessor_from_pretrained : string -> Result DonutProcessor;
  VisionEncoderDecoderModel_from_pretrained : string -> Result VisionEncoderDecoderModel;
  (** [torch.cuda.is_available()] *)
  cuda_is_available : bool;
  (** [donut_model.to("cuda")]: [None] when the move succeeds. *)
  model_to_cuda : VisionEncoderDecoderModel -> option exn;
  (** [processor(image, return_tensors="pt").pixel_values] *)
  processor_call : DonutProcessor -> Image -> Result Tensor;
  (** [tensor.to("cuda")] *)
  tensor_to_cuda : Tensor -> Result Tensor;
  (** [processor.tokenizer(seed, add_special_tokens=False, return_tensors="pt").input_ids] *)
  tokenizer_call : DonutProcessor -> string -> Result Tensor;
  (** [model.generate(pixel_values, **kwargs).sequences] *)
  model_generate : VisionEncoderDecoderModel -> Tensor -> GenerateKwargs Tensor -> Result Tensor;
  (** [processor.batch_decode(sequences)] *)
  batch_decode : DonutProcessor -> Tensor -> Result (list string)
}.

(** Lines 59-71: the body of the [try] in [load_donut_model]. *)
Definition construct (env : Env) : M unit :=
  (do p <- St.lift (DonutProcessor_from_pretrained env DONUT_ARTIFACT) ;;
   do _ <- set_donut_processor p ;;
   do m <- St.lift (VisionEncoderDecoderModel_from_pretrained env DONUT_ARTIFACT) ;;
   do _ <- set_donut_model m ;;
   if cuda_is_available env then
     match model_to_cuda env m with
     | Some e => St.raise e
     | None => set_donut_model (to_device Cuda m)
     end
   else St.ret tt)%st.

(** Lines 53-73.  Returns the current values of the two globals. *)
Definition load_donut_model (env : Env)
  : M (option DonutProcessor * option VisionEncoderDecoderModel) :=
  (do g <- St.get ;;
   do _ <- (if needs_load g
            then St.try_except (construct env) (fun e => St.raise e)
            else St.ret tt) ;;
   do g' <- St.get ;;
   St.ret (donut_processor g', donut_model g'))%st.

(** [x.to("cuda")] when CUDA is available (lines 148-149, 158-159). *)
Definition maybe_to_cuda (env : Env) (t : Tensor) : M Tensor :=
  if cuda_is_available env then St.lift (tensor_to_cuda env t) else St.ret t.

(** [l[0]] *)
Definition index0 {A} (l : list A) : M A :=
  match l with
  | x :: _ => St.ret x
  | [] => St.raise (Exception "list index out of range")
  end.

(** Lines 131-179: the body of the [try] in [extract_structured_with_donut]. *)
Definition donut_answer (env : Env) (image : Image) (target_field : string) : M string :=
  (do (processor, model) <- load_donut_model env ;;
   let prompt := prompt_for target_field in
   do processor <- St.some processor ;;
   do pixel_values <- St.lift (processor_call env processor image) ;;
   do pixel_values <- maybe_to_cuda env pixel_values ;;
   do decoder_input_ids <- St.lift (tokenizer_call env processor (decoder_seed prompt)) ;;
   do decoder_input_ids <- maybe_to_cuda env decoder_input_ids ;;
   do model <- St.some model ;;
   do sequences <-
     St.lift (model_generate env model pixel_values
       {| decoder_input_ids := decoder_input_ids;
          max_length := max_position_embeddings model;
          early_stopping := true;
          gen_pad_token_id := pad_token_id processor;
          gen_eos_token_id := eos_token_id processor;
          use_cache := true;
          num_beams := 1;
          bad_words_ids := [[unk_token_id processor]];
          return_dict_in_generate := true |}) ;;
   do decoded <- St.lift (batch_decode env processor sequences) ;;
   do sequence <- index0 decoded ;;
   St.ret (clean_sequence processor sequence))%st.

(** Lines 126-183. *)
Definition extract_structured_with_donut (env : Env) (image : Image) (target_field : string)
  : M string :=
  St.try_except (donut_answer env image target_field) (fun e => St.ret "").

(** One environment per field of a request. *)
Definition World : Type := string -> Env.

(** Lines 193-200: the loop over [fields], [results] being the dict built so far. *)
Fixpoint extract_fields_loop (w : World) (image : Image) (fs : list string)
    (results : gmap string string) : M (gmap string string) :=
  match fs with
  | [] => St.ret results
  | field :: rest =>
      (do results <-
         St.try_except
           (do value <- extract_structured_with_donut (w field) image field ;;
            St.ret (<[field := if PyStr.truthy value then value else ""]> results))
           (fun e => St.ret (<[field := ""]> results)) ;;
       extract_fields_loop w image rest results)%st
  end.

(** Lines 186-202. *)
Definition extract_all_structured_fields (w : World) (image : Image)
  : M (gmap string string) :=
  extract_fields_loop w image fields ∅.

(** The environment [env] with [model.generate] made to raise [e]. *)
Definition fail_generation (e : exn) (env : Env) : Env :=
  {| DonutProcessor_from_pretrained := DonutProcessor_from_pretrained env;
     VisionEncoderDecoderModel_from_pretrained :=
       VisionEncoderDecoderModel_from_pretrained env;
     cuda_is_available := cuda_is_available env;
     model_to_cuda := model_to_cuda env;
     processor_call := processor_call env;
     tensor_to_cuda := tensor_to_cuda env;
     tokenizer_call := tokenizer_call env;
     model_generate := fun _ _ _ => inl e;
     batch_decode := batch_decode env |}.

(** The request [w] with a generation failure injected into field [f] only. *)
Definition inject_failure (w : World) (f : string) (e : exn) : World :=
  fun field => if String.eqb field f then fail_generation e (w field) else w field.

(** Construction fails while the processor or the model is fetched. *)
Definition pretrained_fails (env : Env) : Prop :=
  (exists e, DonutProcessor_from_pretrained env DONUT_ARTIFACT = inl e) \/
  (exists e, VisionEncoderDecoderModel_from_pretrained env DONUT_ARTIFACT = inl e).

(** What [extract_structured_with_donut] leaves in the globals and returns. *)
Definition field_globals (env : Env) (g : Globals) : Globals :=
  (load_donut_model env g).1.

Definition field_value (env : Env) (image : Image) (target_field : string) (g : Globals)
  : string :=
  match (donut_answer env image target_field g).2 with
  | inl _ => ""
  | inr v => v
  end.

End Donut.

(** ** Text recognition *)

(** One entry of a PaddleOCR page result: [[box, (text, confidence)]]. *)
Record OcrLine : Type := {
  line_box : list (float * float);
  line_text : string;
  line_confidence : float
}.

(** The dict [{"text": ..., "confidence": ...}] returned by the OCR path. *)
Record TextExtraction : Type := {
  text : string;
  confidence : float
}.

(** [sum(l)] on floats: the additions of binary64, one after the other
    from the left, starting from [0]. *)
Definition py_sum (l : list float) : float := fold_left PrimFloat.add l 0%float.

(** [float(n)] for the length [n] of a list, which is below [2^63]. *)
Definition float_of_nat (n : nat) : float := of_uint63 (Uint63.of_Z (Z.of_nat n)).

(** [a / n] for a float [a] and an int [n]. *)
Definition py_div (a : float) (n : nat) : Result float :=
  match n with
  | O => Res.raise (Exception "float division by zero")
  | S _ => Res.ret (a / float_of_nat n)%float
  end.

(** Nearest integer, ties to the even one. *)
Definition round_half_even (x : Q) : Z :=
  let q := Qfloor x in
  match (x - inject_Z q ?= 1 # 2)%Q with
  | Lt => q
  | Gt => q + 1
  | Eq => if Z.even q then q else q + 1
  end.

(** The rational [m * 2^e]. *)
Definition magnitude (m : positive) (e : Z) : Q :=
  if 0 <=? e then inject_Z (Z.pos m * 2 ^ e) else Z.pos m # Z.to_pos (2 ^ (- e)).

(** The float nearest to [k / scale], with the sign [s]. *)
Definition float_of_fraction (s : bool) (k : Z) (scale : positive) : spec_float :=
  match k with
  | Z.pos p => SFdiv prec emax (S754_finite s p 0) (S754_finite false scale 0)
  | _ => S754_zero s
  end.

(** [round(x, ndigits)] on a float, [ndigits >= 0]: the exact value of [x]
    is rounded to [ndigits] decimals, ties to even, and the float nearest
    to that decimal is returned; zeros, infinities and NaN come back as
    they are. *)
Definition py_round (x : float) (ndigits : nat) : float :=
  match Prim2SF x with
  | S754_finite s m e =>
      let scale := 10 ^ Z.of_nat ndigits in
      SF2Prim (float_of_fraction s
                 (round_half_even (magnitude m e * inject_Z scale)) (Z.to_pos scale))
  | _ => x
  end.

(** Lines 102-109: the two lists filled by the loop over the page's lines. *)
Definition collect_lines (lines : list OcrLine) : list string * list float :=
  fold_left
    (fun acc line =>
       ((acc.1 ++ [line_text line])%list, (acc.2 ++ [line_confidence line])%list))
    lines ([], []).



(** The mean as binary64 arithmetic gives it: the sum from the left,
    divided by the count. *)
Definition float_mean (l : list float) : float :=
  (py_sum l / float_of_nat (length l))%float.


(** [x] is a zero or a positive number [m * 2^e <= K] with [e <= 0]. *)
Definition at_most (x : spec_float) (K : Z) : Prop :=
  match x with
  | S754_zero _ => True
  | S754_finite false m e => e <= 0 /\ Z.pos m <= K * 2 ^ (- e)
  | _ => False
  end.

Section Recognition.

Context {Image : Type}.

(** [paddle_ocr.ocr(img, cls=...)]: one entry per input image, each [None]
    or the list of detected lines. *)
Definition OcrBackend : Type := Image -> bool -> Result (list (option (list OcrLine))).

(** Lines 86-123. *)
Definition extract_text_with_paddleocr (ocr : OcrBackend) (image : Image)
  : Result TextExtraction :=
  Res.try_except
    (do result <- ocr image true ;;
     match result with
     | [] | None :: _ | Some [] :: _ => Res.ret {| text := ""; confidence := 0%float |}
     | Some lines :: _ =>
         let '(extracted_lines, confidence_scores) := collect_lines lines in
         let full_text := PyStr.join PyStr.NL extracted_lines in
         do avg_confidence <-
           (match confidence_scores with
            | _ :: _ => py_div (py_sum confidence_scores) (length confidence_scores)
            | [] => Res.ret 0%float
            end) ;;
         Res.ret {| text := full_text; confidence := py_round avg_confidence 4 |}
     end)%res
    (fun e => Res.raise e).

End Recognition.

(** ** Rasterisation and the structured-extract endpoint *)

Record UploadFile : Type := {
  filename : string;
  content_type : string;
  file_bytes : list Byte.byte
}.

Record JSONResponse (A : Type) : Type := { content : A }.
Arguments content {A} _.

Section Endpoint.

Context {Image Tensor : Type}.

(** Outcomes of the calls into pdf2image and PIL, and [str] of an
    [HTTPException], which the web framework defines. *)
Record IO : Type := {
  (** [convert_from_bytes(b, dpi=.., first_page=.., last_page=..)] *)
  convert_from_bytes : list Byte.byte -> Z -> Z -> Z -> Result (list Image);
  (** [Image.open(io.BytesIO(b))] *)
  Image_open : list Byte.byte -> Result Image;
  http_exception_str : Z -> string -> string
}.

(** [str(e)] *)
Definition str_exn (io : IO) (e : exn) : string :=
  match e with
  | Exception msg => msg
  | HTTPException status detail => http_exception_str io status detail
  end.

(** Lines 76-83. *)
Definition convert_pdf_to_image (io : IO) (pdf_bytes : list Byte.byte)
  : Result (option Image) :=
  Res.try_except
    (do images <- convert_from_bytes io pdf_bytes 300 1 1 ;;
     Res.ret (match images with
              | img :: _ => Some img
              | [] => None
              end))%res
    (fun e => Res.raise e).

(** Lines 284-290 (and 241-249): the page image of a request. *)
Definition request_image (io : IO) (file : UploadFile) : Result Image :=
  (do image <-
     (if String.eqb (content_type file) "application/pdf"
      then convert_pdf_to_image io (file_bytes file)
      else (do img <- Image_open io (file_bytes file) ;; Res.ret (Some img))) ;;
   match image with
   | None => Res.raise (HTTPException 400 "Failed to process file")
   | Some img => Res.ret img
   end)%res.

(** Lines 261-299. *)
Definition ai_structured_extract (io : IO) (w : @World Image Tensor) (file : UploadFile)
  : M (JSONResponse (gmap string string)) :=
  St.try_except
    (do image <- St.lift (request_image io file) ;;
     do structured_data <- extract_all_structured_fields w image ;;
     St.ret {| content := structured_data |})%st
    (fun e => St.raise (HTTPException 500 (str_exn io e))).

End Endpoint.

(** The dict that binds every field to the empty string. *)
Definition empty_result : gmap string string :=
  list_to_map ((fun field => (field, "")) <$> fields).

(** [result[0]] when it is there and is a list, else no lines: the lines
    the guard of line 98 lets through. *)
Definition detected_lines (result : list (option (list OcrLine))) : list OcrLine :=
  match result with
  | Some lines :: _ => lines
  | _ => []
  end.

(** ** Concrete environments *)

Module Demo.

Definition processor : DonutProcessor :=
  {| eos_token := "</s>"; pad_token := "<pad>";
     pad_token_id := 1; eos_token_id := 2; unk_token_id := 3 |}.

Definition model : VisionEncoderDecoderModel :=
  {| device := Cpu; max_position_embeddings := 128 |}.

(** Every call succeeds, no GPU; decoding yields [decoded]. *)
Definition env (decoded : string) : @Env unit unit :=
  {| DonutProcessor_from_pretrained := fun _ => inr processor;
     VisionEncoderDecoderModel_from_pretrained := fun _ => inr model;
     cuda_is_available := false;
     model_to_cuda := fun _ => None;
     processor_call := fun _ _ => inr tt;
     tensor_to_cuda := fun t => inr t;
     tokenizer_call := fun _ _ => inr tt;
     model_generate := fun _ _ _ => inr tt;
     batch_decode := fun _ _ => inr [decoded] |}.

(** The model artifact cannot be fetched. *)
Definition env_load_fails : @Env unit unit :=
  {| DonutProcessor_from_pretrained := fun _ => inr processor;
     VisionEncoderDecoderModel_from_pretrained :=
       fun _ => inl (Exception "artifact unavailable");
     cuda_is_available := false;
     model_to_cuda := fun _ => None;
     processor_call := fun _ _ => inr tt;
     tensor_to_cuda := fun t => inr t;
     tokenizer_call := fun _ _ => inr tt;
     model_generate := fun _ _ _ => inr tt;
     batch_decode := fun _ _ => inr ["<s_answer> 1</s>"] |}.

(** Both artifacts are fetched, a GPU is present, and moving the model to
    it runs out of memory. *)
Definition env_to_cuda_fails : @Env unit unit :=
  {| DonutProcessor_from_pretrained := fun _ => inr processor;
     VisionEncoderDecoderModel_from_pretrained := fun _ => inr model;
     cuda_is_available := true;
     model_to_cuda := fun _ => Some (Exception "CUDA out of memory");
     processor_call := fun _ _ => inr tt;
     tensor_to_cuda := fun t => inr t;
     tokenizer_call := fun _ _ => inr tt;
     model_generate := fun _ _ _ => inr tt;
     batch_decode := fun _ _ => inr ["<s_answer> 1</s>"] |}.

(** What the decoder emits for a field: the seed, an answer naming the
    field, and the closing markers. *)
Definition decoded_for (field : string) : string :=
  decoder_seed (prompt_for field) +:+ " " +:+ field +:+ "-1</s_answer></s>".

Definition world : @World unit unit := fun field => env (decoded_for field).

Definition world_load_fails : @World unit unit := fun _ => env_load_fails.

Definition io : @IO unit :=
  {| convert_from_bytes := fun _ _ _ _ => inr [tt];
     Image_open := fun _ => inr tt;
     http_exception_str := fun _ detail => detail |}.

(** The decoded sequence of a DocVQA generation: seed, answer, closing
    markers. *)
Definition decoded_order_id : string :=
  "<s_docvqa><s_question> what is the order id?</s_question><s_answer> 12345</s_answer></s>".

Definition ocr_line (t : string) (c : float) : OcrLine :=
  {| line_box := []; line_text := t; line_confidence := c |}.


Definition two_lines : list OcrLine :=
  [ ocr_line "INVOICE #4412" 0.98766%float; ocr_line "Total: 12.00" 0.5%float ].

Definition ocr_two_lines : @OcrBackend unit := fun _ _ => inr [Some two_lines].

Definition one_line : list OcrLine := [ ocr_line "INVOICE #4412" 0.98766%float ].




Definition png : UploadFile :=
  {| filename := "receipt.png"; content_type := "image/png"; file_bytes := [] |}.

End Demo.

(** ** The text endpoint and further vocabulary *)

Section TextEndpoint.

Context {Image : Type}.


End TextEndpoint.

(** A string that neither starts nor ends with whitespace. *)
Definition trimmed (s : string) : Prop :=
  match s with
  | EmptyString => True
  | String c r =>
      PyStr.is_space c = false /\ PyStr.is_space (PyStr.last_char c r) = false
  end.

(** The model global is only ever set after the processor global. *)
Definition consistent (g : Globals) : Prop :=
  donut_processor g = None -> donut_model g = None.

(** [s] is free of the character [c]. *)
Fixpoint lacks (c : ascii) (s : string) : bool :=
  match s with
  | EmptyString => true
  | String c' s' => negb (Ascii.eqb c' c) && lacks c s'
  end.

Module Samples.

(** A GPU is present and every call succeeds; decoding yields two
    sequences. *)
Definition env_gpu : @Env unit unit :=
  {| DonutProcessor_from_pretrained := fun _ => inr Demo.processor;
     VisionEncoderDecoderModel_from_pretrained := fun _ => inr Demo.model;
     cuda_is_available := true;
     model_to_cuda := fun _ => None;
     processor_call := fun _ _ => inr tt;
     tensor_to_cuda := fun t => inr t;
     tokenizer_call := fun _ _ => inr tt;
     model_generate := fun _ _ _ => inr tt;
     batch_decode := fun _ _ => inr ["<s_answer> 42 "; "unused"] |}.

(** The processor artifact cannot be fetched. *)
Definition env_no_processor : @Env unit unit :=
  {| DonutProcessor_from_pretrained := fun _ => inl (Exception "offline");
     VisionEncoderDecoderModel_from_pretrained := fun _ => inr Demo.model;
     cuda_is_available := false;
     model_to_cuda := fun _ => None;
     processor_call := fun _ _ => inr tt;
     tensor_to_cuda := fun t => inr t;
     tokenizer_call := fun _ _ => inr tt;
     model_generate := fun _ _ _ => inr tt;
     batch_decode := fun _ _ => inr [] |}.

Definition loaded : Globals :=
  {| donut_processor := Some Demo.processor; donut_model := Some Demo.model |}.

(** pdf2image renders no page. *)
Definition io_no_page : @IO unit :=
  {| convert_from_bytes := fun _ _ _ _ => inr [];
     Image_open := fun _ => inr tt;
     http_exception_str := fun _ detail => detail |}.

Definition pdf : UploadFile :=
  {| filename := "invoice.pdf"; content_type := "application/pdf";
     file_bytes := [] |}.





(** The lines of [Demo.two_lines] with boxes, followed by a second page. *)
Definition two_lines_boxed : list OcrLine :=
  [ {| line_box := [(0, 0); (1, 0)]%float;
       line_text := "INVOICE #4412"; line_confidence := 0.98766%float |};
    {| line_box := [(0, 1); (1, 1)]%float;
       line_text := "Total: 12.00"; line_confidence := 0.5%float |} ].

Definition ocr_boxed : @OcrBackend unit :=
  fun _ _ => inr [Some two_lines_boxed; Some Demo.one_line].




End Samples.


(** * Properties *)

Ltac st_unfold :=
  unfold St.bind, St.ret, St.raise, St.lift, St.get, St.try_except,
    St.some, set_donut_processor, set_donut_model in *.

Ltac res_unfold :=
  unfold Res.bind, Res.ret, Res.raise, Res.try_except in *.

(** ** The lazy singleton *)

Section LoadFacts.

Context {Image Tensor : Type}.
Implicit Types (env : @Env Image Tensor) (g : Globals).

(** Once both globals are set, [load_donut_model] hands them back and calls
    nothing: no environment is consulted and the globals do not change. *)
Lemma load_donut_model_ready env g :
  needs_load g = false ->
  load_donut_model env g = (g, inr (donut_processor g, donut_model g)).
Proof.
  intros Hg. unfold load_donut_model. st_unfold. now rewrite Hg.
Qed.

(** A call that returns normally returns two handles, never [None], and
    leaves the singleton initialised. *)
Lemma load_donut_model_returns env g g' op om :
  load_donut_model env g = (g', inr (op, om)) ->
  needs_load g' = false /\ op = donut_processor g' /\ om = donut_model g' /\
  is_Some op /\ is_Some om.
Proof.
  unfold load_donut_model, construct, needs_load. st_unfold.
  destruct g as [[p|] [m|]]; simpl;
    destruct (DonutProcessor_from_pretrained env DONUT_ARTIFACT); simpl;
    try discriminate;
    destruct (VisionEncoderDecoderModel_from_pretrained env DONUT_ARTIFACT); simpl;
    try discriminate;
    destruct (cuda_is_available env); simpl; try discriminate;
    try (destruct (model_to_cuda env _); simpl; try discriminate);
    intros [= <- <- <-]; simpl; eauto 10.
Qed.

(** A failure while fetching the processor or the model leaves
    [donut_model] unset, so the guard of the next call is true again. *)
Lemma load_donut_model_pretrained_fails env g :
  donut_model g = None ->
  pretrained_fails env ->
  exists g' e,
    load_donut_model env g = (g', inl e) /\
    donut_model g' = None /\ needs_load g' = true.
Proof.
  intros Hm Hf. unfold load_donut_model, construct, needs_load. st_unfold.
  destruct g as [p m]; simpl in *; subst m.
  rewrite orb_true_r.
  destruct Hf as [[e He]|[e He]]; rewrite He; simpl.
  - exists {| donut_processor := p; donut_model := None |}, e.
    simpl. now rewrite orb_true_r.
  - destruct (DonutProcessor_from_pretrained env DONUT_ARTIFACT) as [e'|p']; simpl.
    + exists {| donut_processor := p; donut_model := None |}, e'.
      simpl. now rewrite orb_true_r.
    + exists {| donut_processor := Some p'; donut_model := None |}, e.
      simpl. auto.
Qed.

(** Injecting a generation failure does not change what loading does. *)
Lemma load_donut_model_fail_generation e env g :
  load_donut_model (fail_generation e env) g = load_donut_model env g.
Proof. reflexivity. Qed.

End LoadFacts.

(** ** Single-field extraction *)

Section ExtractFacts.

Context {Image Tensor : Type}.
Implicit Types (env : @Env Image Tensor) (w : @World Image Tensor)
  (image : Image) (g : Globals).

(** After loading, nothing in the [try] block touches the globals. *)
Lemma donut_answer_globals env image field g :
  (donut_answer env image field g).1 = field_globals env g.
Proof.
  unfold donut_answer, field_globals, maybe_to_cuda, index0.
  unfold St.bind at 1.
  destruct (load_donut_model env g) as [g' [e|[op om]]]; simpl; [reflexivity|].
  st_unfold.
  destruct op as [p|]; simpl; [|reflexivity].
  destruct (processor_call env p image) as [?|pv]; simpl; [reflexivity|].
  destruct (cuda_is_available env); simpl.
  - destruct (tensor_to_cuda env pv) as [?|pv']; simpl; [reflexivity|].
    destruct (tokenizer_call env p _) as [?|ids]; simpl; [reflexivity|].
    destruct (tensor_to_cuda env ids) as [?|ids']; simpl; [reflexivity|].
    destruct om as [m|]; simpl; [|reflexivity].
    destruct (model_generate env m pv' _) as [?|sq]; simpl; [reflexivity|].
    destruct (batch_decode env p sq) as [?|[|d ds]]; reflexivity.
  - destruct (tokenizer_call env p _) as [?|ids]; simpl; [reflexivity|].
    destruct om as [m|]; simpl; [|reflexivity].
    destruct (model_generate env m pv _) as [?|sq]; simpl; [reflexivity|].
    destruct (batch_decode env p sq) as [?|[|d ds]]; reflexivity.
Qed.

(** The closed form of [extract_structured_with_donut]: it always returns. *)
Lemma extract_structured_with_donut_eq env image field g :
  extract_structured_with_donut env image field g
  = (field_globals env g, inr (field_value env image field g)).
Proof.
  unfold extract_structured_with_donut, field_value, St.try_except.
  rewrite <- (donut_answer_globals env image field g).
  destruct (donut_answer env image field g) as [g' [e|v]]; reflexivity.
Qed.

(** With [model.generate] raising, the [try] block cannot complete. *)
Lemma donut_answer_fail_generation e env image field g :
  exists e', (donut_answer (fail_generation e env) image field g).2 = inl e'.
Proof.
  unfold donut_answer, maybe_to_cuda, index0.
  unfold St.bind at 1. rewrite load_donut_model_fail_generation.
  destruct (load_donut_model env g) as [g' [e0|[op om]]]; simpl; [eauto|].
  st_unfold.
  destruct op as [p|]; simpl; [|eauto].
  destruct (processor_call env p image) as [?|pv]; simpl; [eauto|].
  destruct (cuda_is_available env); simpl.
  - destruct (tensor_to_cuda env pv) as [?|pv']; simpl; [eauto|].
    destruct (tokenizer_call env p _) as [?|ids]; simpl; [eauto|].
    destruct (tensor_to_cuda env ids) as [?|ids']; simpl; [eauto|].
    destruct om as [m|]; simpl; eauto.
  - destruct (tokenizer_call env p _) as [?|ids]; simpl; [eauto|].
    destruct om as [m|]; simpl; eauto.
Qed.

Lemma field_value_fail_generation e env image field g :
  field_value (fail_generation e env) image field g = "".
Proof.
  unfold field_value.
  destruct (donut_answer_fail_generation e env image field g) as [e' ->].
  reflexivity.
Qed.

(** When loading raises, the field value is the empty string. *)
Lemma field_value_load_fails env image field g g' e :
  load_donut_model env g = (g', inl e) ->
  field_value env image field g = "".
Proof.
  intros H. unfold field_value, donut_answer. unfold St.bind at 1.
  now rewrite H.
Qed.

Lemma truthy_or_empty (v : string) : (if PyStr.truthy v then v else "") = v.
Proof. now destruct v. Qed.

(** One turn of the loop of [extract_all_structured_fields]. *)
Lemma extract_fields_loop_cons w image field rest (results : gmap string string) g :
  extract_fields_loop w image (field :: rest) results g
  = extract_fields_loop w image rest
      (<[field := field_value (w field) image field g]> results)
      (field_globals (w field) g).
Proof.
  simpl. unfold St.bind at 1. unfold St.try_except, St.bind.
  rewrite extract_structured_with_donut_eq. unfold St.ret.
  now rewrite truthy_or_empty.
Qed.

(** The loop always completes, and binds exactly the fields it went over. *)
Lemma extract_fields_loop_dom w image fs :
  forall (results : gmap string string) g,
    exists g' res,
      extract_fields_loop w image fs results g = (g', inr res) /\
      dom res = dom results ∪ list_to_set fs.
Proof.
  induction fs as [|field rest IH]; intros results g.
  - exists g, results. split; [reflexivity|]. simpl. set_solver.
  - rewrite extract_fields_loop_cons.
    destruct (IH (<[field := field_value (w field) image field g]> results)
                 (field_globals (w field) g)) as (g' & res & Hrun & Hdom).
    exists g', res. split; [exact Hrun|].
    rewrite Hdom, dom_insert_L. simpl. set_solver.
Qed.

(** The loop with a failure injected into [f], run next to the loop
    without it: same globals, same values away from [f]. *)
Lemma extract_fields_loop_isolated w image f e fs :
  forall (results results' : gmap string string) g,
    (forall f', f' <> f -> results' !! f' = results !! f') ->
    f ∈ fs \/ results' !! f = Some "" ->
    exists g' res res',
      extract_fields_loop w image fs results g = (g', inr res) /\
      extract_fields_loop (inject_failure w f e) image fs results' g = (g', inr res') /\
      res' !! f = Some "" /\
      forall f', f' <> f -> res' !! f' = res !! f'.
Proof.
  induction fs as [|field rest IH]; intros results results' g Hagree Hf.
  - exists g, results, results'. simpl. unfold St.ret.
    destruct Hf as [Hf|Hf]; [inversion Hf|]. auto.
  - rewrite !extract_fields_loop_cons.
    unfold inject_failure at 2 3.
    destruct (String.eqb_spec field f) as [->|Hne].
    + unfold field_globals. rewrite load_donut_model_fail_generation.
      rewrite field_value_fail_generation.
      apply IH.
      * intros f' Hf'. rewrite !lookup_insert_ne by congruence. auto.
      * right. apply lookup_insert_eq.
    + apply IH.
      * intros f' Hf'. destruct (decide (field = f')) as [->|Hne'].
        -- now rewrite !lookup_insert_eq.
        -- rewrite !lookup_insert_ne by assumption. auto.
      * destruct Hf as [Hf|Hf].
        -- left. apply elem_of_cons in Hf as [->|Hf]; [congruence|exact Hf].
        -- right. rewrite lookup_insert_ne by assumption. exact Hf.
Qed.

End ExtractFacts.

(** ** The orchestrator *)

Section OrchestratorFacts.

Context {Image Tensor : Type}.
Implicit Types (env : @Env Image Tensor) (w : @World Image Tensor)
  (image : Image) (g : Globals).

(** C10.  [extract_structured_with_donut] never propagates an exception:
    for every environment, image, field name and state of the globals it
    returns a string, and that string is empty whenever anything inside
    its [try] block raised, be it the model load, the preparation of the
    inputs, the generation or the decoding. *)
Theorem extract_structured_with_donut_total env image field g :
  exists g' v,
    extract_structured_with_donut env image field g = (g', inr v) /\
    (forall e, (donut_answer env image field g).2 = inl e -> v = "") /\
    (forall g1 e, load_donut_model env g = (g1, inl e) -> v = "" /\ g' = g1).
Proof.
  exists (field_globals env g), (field_value env image field g).
  split; [apply extract_structured_with_donut_eq|]. split.
  - intros e He. unfold field_value. now rewrite He.
  - intros g1 e He. split.
    + eapply field_value_load_fails; eauto.
    + unfold field_globals. now rewrite He.
Qed.

(** C2.  Whatever the per-field outcomes, [extract_all_structured_fields]
    returns normally with a dict whose keys are exactly the six field
    names, each bound to a string. *)
Theorem extract_all_structured_fields_six_keys w image g :
  exists g' res,
    extract_all_structured_fields w image g = (g', inr res) /\
    dom res = list_to_set fields /\
    size res = 6%nat /\
    forall f, f ∈ fields -> is_Some (res !! f).
Proof.
  destruct (extract_fields_loop_dom w image fields ∅ g) as (g' & res & Hrun & Hdom).
  exists g', res. split; [exact Hrun|].
  assert (Hd : dom res = list_to_set fields) by (rewrite Hdom; set_solver).
  split; [exact Hd|]. split.
  - rewrite <- size_dom, Hd. reflexivity.
  - intros f Hf. apply elem_of_dom. rewrite Hd. now apply elem_of_list_to_set.
Qed.

(** C1.  Injecting a failure into the generation step of one field [f]
    leaves the result of every other field exactly as in the run without
    the failure, binds [f] to the empty string, and does not stop the
    loop: both runs return normally, with the same globals. *)
Theorem field_failure_isolation w image g f e :
  f ∈ fields ->
  exists g' res res',
    extract_all_structured_fields w image g = (g', inr res) /\
    extract_all_structured_fields (inject_failure w f e) image g = (g', inr res') /\
    res' !! f = Some "" /\
    forall f', f' <> f -> res' !! f' = res !! f'.
Proof.
  intros Hf. apply extract_fields_loop_isolated; auto.
Qed.

End OrchestratorFacts.

Lemma field_failure_isolation_witness :
  "order_id" ∈ fields /\
  exists g' res res',
    extract_all_structured_fields Demo.world tt initial_globals = (g', inr res) /\
    extract_all_structured_fields
      (inject_failure Demo.world "order_id" (Exception "CUDA out of memory"))
      tt initial_globals = (g', inr res') /\
    res' !! "order_id" = Some "" /\
    forall f', f' <> "order_id" -> res' !! f' = res !! f'.
Proof.
  assert (H : "order_id" ∈ fields)
    by (apply list_elem_of_further, list_elem_of_here).
  split; [exact H|].
  exact (field_failure_isolation Demo.world tt initial_globals "order_id"
           (Exception "CUDA out of memory") H).
Defined.

(** ** Loading failures *)

Section RetryFacts.

Context {Image Tensor : Type}.
Implicit Types (env : @Env Image Tensor) (w : @World Image Tensor)
  (image : Image) (g : Globals).

(** From a state whose guard is true, a call whose construction steps all
    succeed installs and returns the handles it has just built. *)
Lemma load_donut_model_constructs env g p m :
  needs_load g = true ->
  DonutProcessor_from_pretrained env DONUT_ARTIFACT = inr p ->
  VisionEncoderDecoderModel_from_pretrained env DONUT_ARTIFACT = inr m ->
  (cuda_is_available env = true -> model_to_cuda env m = None) ->
  let m' := if cuda_is_available env then to_device Cuda m else m in
  load_donut_model env g
  = ({| donut_processor := Some p; donut_model := Some m' |},
     inr (Some p, Some m')).
Proof.
  intros Hg Hp Hm Hc. unfold load_donut_model, construct. st_unfold.
  rewrite Hg, Hp. simpl. rewrite Hm. simpl.
  destruct (cuda_is_available env); simpl; [|reflexivity].
  now rewrite Hc.
Qed.

(** A request during which every construction attempt fails while
    fetching: every field is bound to the empty string and [donut_model]
    stays unset. *)
Lemma extract_fields_loop_load_fails w image fs :
  (forall f, pretrained_fails (w f)) ->
  forall (results : gmap string string) g,
    donut_model g = None ->
    exists g',
      extract_fields_loop w image fs results g
      = (g', inr (foldl (fun acc field => <[field := ""]> acc) results fs)) /\
      donut_model g' = None.
Proof.
  intros Hw. induction fs as [|field rest IH]; intros results g Hg.
  - exists g. simpl. auto.
  - rewrite extract_fields_loop_cons.
    destruct (load_donut_model_pretrained_fails (w field) g Hg (Hw field))
      as (g1 & e & Hload & Hg1 & _).
    rewrite (field_value_load_fails _ _ _ _ _ _ Hload).
    unfold field_globals. rewrite Hload. simpl.
    apply IH. exact Hg1.
Qed.

(** C3, as the code has it.  When the page image is available and every
    construction attempt of the request fails while the processor or the
    model is fetched, the failure is caught field by field: the request
    answers with the six-key dict, every value empty, and raises nothing.
    The singleton stays uninitialised, so the next call constructs again
    and, when that succeeds, returns the freshly built handles. *)
Theorem ai_structured_extract_load_failure
    (io : @IO Image) w file image g :
  request_image io file = inr image ->
  donut_model g = None ->
  (forall f, pretrained_fails (w f)) ->
  exists g',
    ai_structured_extract io w file g = (g', inr {| content := empty_result |}) /\
    needs_load g' = true /\
    forall env p m,
      DonutProcessor_from_pretrained env DONUT_ARTIFACT = inr p ->
      VisionEncoderDecoderModel_from_pretrained env DONUT_ARTIFACT = inr m ->
      (cuda_is_available env = true -> model_to_cuda env m = None) ->
      let m' := if cuda_is_available env then to_device Cuda m else m in
      load_donut_model env g' =
        ({| donut_processor := Some p; donut_model := Some m' |},
         inr (Some p, Some m')).
Proof.
  intros Himg Hg Hw.
  destruct (extract_fields_loop_load_fails w image fields Hw ∅ g Hg)
    as (g' & Hrun & Hg').
  assert (Hneeds : needs_load g' = true).
  { unfold needs_load. rewrite Hg'. simpl. apply orb_true_r. }
  exists g'. split; [|split].
  - unfold ai_structured_extract, extract_all_structured_fields. st_unfold.
    rewrite Himg, Hrun. reflexivity.
  - exact Hneeds.
  - intros env p m Hp Hm Hc. now apply load_donut_model_constructs.
Qed.

End RetryFacts.

Lemma ai_structured_extract_load_failure_witness :
  request_image Demo.io Demo.png = inr tt /\
  donut_model initial_globals = None /\
  (forall f, pretrained_fails (Demo.world_load_fails f)) /\
  exists g',
    ai_structured_extract Demo.io Demo.world_load_fails Demo.png initial_globals
    = (g', inr {| content := empty_result |}) /\
    needs_load g' = true /\
    forall (env : @Env unit unit) p m,
      DonutProcessor_from_pretrained env DONUT_ARTIFACT = inr p ->
      VisionEncoderDecoderModel_from_pretrained env DONUT_ARTIFACT = inr m ->
      (cuda_is_available env = true -> model_to_cuda env m = None) ->
      let m' := if cuda_is_available env then to_device Cuda m else m in
      load_donut_model env g' =
        ({| donut_processor := Some p; donut_model := Some m' |},
         inr (Some p, Some m')).
Proof.
  assert (Himg : request_image Demo.io Demo.png = inr tt) by reflexivity.
  assert (Hg : donut_model initial_globals = None) by reflexivity.
  assert (Hw : forall f, pretrained_fails (Demo.world_load_fails f)).
  { intros f. right. exists (Exception "artifact unavailable"). reflexivity. }
  split; [exact Himg|]. split; [exact Hg|]. split; [exact Hw|].
  exact (ai_structured_extract_load_failure
           Demo.io Demo.world_load_fails Demo.png tt initial_globals Himg Hg Hw).
Defined.

(** C3, as stated, fails: with the model artifact unavailable the request
    still answers with a six-key dict instead of a request-level error. *)
Lemma ai_structured_extract_load_failure_not_an_error :
  pretrained_fails Demo.env_load_fails /\
  ai_structured_extract Demo.io Demo.world_load_fails Demo.png initial_globals
  = ({| donut_processor := Some Demo.processor; donut_model := None |},
     inr {| content := empty_result |}) /\
  ~ exists g' e,
      ai_structured_extract Demo.io Demo.world_load_fails Demo.png initial_globals
      = (g', inl e).
Proof.
  assert (Hrun :
    ai_structured_extract Demo.io Demo.world_load_fails Demo.png initial_globals
    = ({| donut_processor := Some Demo.processor; donut_model := None |},
       inr {| content := empty_result |})) by (vm_compute; reflexivity).
  split; [|split].
  - right. exists (Exception "artifact unavailable"). reflexivity.
  - exact Hrun.
  - intros (g' & e & H). rewrite Hrun in H. discriminate.
Qed.

(** C7, at the failing input.  First call: both artifacts are fetched and
    moving the model to the GPU raises.  The call fails, yet both globals
    are set, the model still on the CPU; every later call skips
    construction and returns that handle. *)
Theorem load_donut_model_to_cuda_failure_sticks :
  let g1 := {| donut_processor := Some Demo.processor;
               donut_model := Some Demo.model |} in
  load_donut_model Demo.env_to_cuda_fails initial_globals
  = (g1, inl (Exception "CUDA out of memory")) /\
  needs_load g1 = false /\
  device Demo.model = Cpu /\
  forall env : @Env unit unit,
    load_donut_model env g1 = (g1, inr (Some Demo.processor, Some Demo.model)).
Proof.
  intros g1. split; [reflexivity|]. split; [reflexivity|].
  split; [reflexivity|]. intros env. now apply load_donut_model_ready.
Qed.

(** ** Text recognition *)

Section StringFacts.

Import PyStr.




End StringFacts.

(** ** Binary64 arithmetic

    Bounds on the sums, quotients and roundings of the confidence
    computation, from the specification of the format's operations. *)

Section Binary64.





















Lemma at_most_mono (x : spec_float) (K K' : Z) :
  K <= K' -> at_most x K -> at_most x K'.
Proof.
  intros HK. destruct x as [s|s| |[|] m e]; cbn; auto.
  intros [He Hm]. split; [exact He|].
  assert (0 < 2 ^ (- e)) by (apply Z.pow_pos_nonneg; lia). nia.
Qed.













End Binary64.

Section FloatFacts.



















(** The model on sample confidences: the sum is taken in floats, so the
    mean of 0.25936 and 0.80894 rounds up, and the order of the lines
    shows in the last digit. *)
Example py_round_float_mean :
  py_round (float_mean [0.25936; 0.80894]%float) 4 = 0.5342%float /\
  py_round (float_mean [0.1095; 0.6248; 0.58615]%float) 4 = 0.4402%float /\
  py_round (float_mean [0.6248; 0.58615; 0.1095]%float) 4 = 0.4401%float /\
  py_round 0.03125%float 4 = 0.0312%float.
Proof. repeat split; vm_compute; reflexivity. Qed.

End FloatFacts.

Section RecognitionFacts.

Context {Image : Type}.
Implicit Types (ocr : @OcrBackend Image) (image : Image).

Lemma collect_lines_acc (lines : list OcrLine) (ts : list string) (cs : list float) :
  fold_left
    (fun acc line =>
       ((acc.1 ++ [line_text line])%list, (acc.2 ++ [line_confidence line])%list))
    lines (ts, cs)
  = ((ts ++ map line_text lines)%list, (cs ++ map line_confidence lines)%list).
Proof.
  revert ts cs. induction lines as [|l lines IH]; intros ts cs; simpl.
  - now rewrite !app_nil_r.
  - rewrite IH. simpl. now rewrite <- !app_assoc.
Qed.

Lemma collect_lines_map (lines : list OcrLine) :
  collect_lines lines = (map line_text lines, map line_confidence lines).
Proof. unfold collect_lines. now rewrite collect_lines_acc. Qed.

(** The closed form of the OCR path on a page with at least one line. *)
Lemma extract_text_with_paddleocr_some ocr image result line lines :
  ocr image true = inr result ->
  detected_lines result = line :: lines ->
  extract_text_with_paddleocr ocr image
  = inr {| text := PyStr.join PyStr.NL (map line_text (line :: lines));
           confidence :=
             py_round (float_mean (map line_confidence (line :: lines))) 4 |}.
Proof.
  intros Hocr Hlines. unfold extract_text_with_paddleocr. res_unfold.
  rewrite Hocr.
  destruct result as [|[[|l ls]|] rest]; simpl in Hlines; try discriminate.
  injection Hlines as -> ->.
  rewrite collect_lines_map. reflexivity.
Qed.



End RecognitionFacts.




(** ** Rasterisation *)

Section RasterFacts.

Context {Image Tensor : Type}.
Implicit Types (io : @IO Image) (w : @World Image Tensor) (g : Globals).


End RasterFacts.


(** ** Post-processing of the decoded sequence *)

Section CleanFacts.

Import PyStr.

Lemma lstrip_head s :
  match lstrip s with
  | EmptyString => True
  | String c _ => is_space c = false
  end.
Proof.
  induction s as [|c s IH]; simpl; [exact I|].
  destruct (is_space c) eqn:Hc; [exact IH|exact Hc].
Qed.

Lemma rstrip_head c s :
  is_space c = false ->
  exists s', rstrip (String c s) = String c s'.
Proof.
  intros Hc. simpl. destruct (rstrip s); [rewrite Hc|]; eauto.
Qed.

Lemma rstrip_last s :
  match rstrip s with
  | EmptyString => True
  | String c r => is_space (last_char c r) = false
  end.
Proof.
  induction s as [|c s IH]; simpl; [exact I|].
  destruct (rstrip s) as [|c' r]; simpl.
  - destruct (is_space c) eqn:Hc; simpl; [exact I|exact Hc].
  - exact IH.
Qed.

(** What [strip] returns neither starts nor ends with whitespace. *)
Lemma strip_trimmed s :
  match strip s with
  | EmptyString => True
  | String c r => is_space c = false /\ is_space (last_char c r) = false
  end.
Proof.
  unfold strip. pose proof (lstrip_head s) as Hh.
  pose proof (rstrip_last (lstrip s)) as Hl.
  destruct (lstrip s) as [|c t]; simpl in *; [exact I|].
  destruct (rstrip_head c t Hh) as [t' Ht]. simpl in Ht.
  rewrite Ht in *. auto.
Qed.

End CleanFacts.

(** C8, at the failing input.  The decoded sequence of a generation
    opens with the task tag.  The end-of-sequence marker is removed and the
    result is trimmed, but the one tag that is deleted is the task tag:
    the returned field value still holds the question and the answer tag. *)
Theorem extract_structured_with_donut_keeps_answer_tag :
  let returned :=
    "<s_question> what is the order id?</s_question><s_answer> 12345</s_answer>" in
  clean_sequence Demo.processor Demo.decoded_order_id = returned /\
  (extract_structured_with_donut (Demo.env Demo.decoded_order_id) tt "order_id"
     initial_globals).2 = inr returned /\
  PyStr.contains "<s_answer>" returned = true /\
  PyStr.contains (eos_token Demo.processor) returned = false /\
  PyStr.contains (pad_token Demo.processor) returned = false.
Proof.
  intros returned. repeat (split; [vm_compute; reflexivity|]).
  vm_compute; reflexivity.
Qed.

(** * Further properties of the code *)

(** ** The singleton across calls and requests *)

Section SingletonFacts.

Context {Image Tensor : Type}.
Implicit Types (env : @Env Image Tensor) (w : @World Image Tensor)
  (image : Image) (g : Globals).

Lemma field_globals_ready env g :
  needs_load g = false -> field_globals env g = g.
Proof.
  intros Hg. unfold field_globals. now rewrite load_donut_model_ready.
Qed.

Lemma extract_fields_loop_ready w image fs :
  forall (results : gmap string string) g,
    needs_load g = false ->
    (extract_fields_loop w image fs results g).1 = g.
Proof.
  induction fs as [|field rest IH]; intros results g Hg; [reflexivity|].
  rewrite extract_fields_loop_cons, field_globals_ready by assumption.
  now apply IH.
Qed.

Lemma load_donut_model_consistent env g :
  consistent g -> consistent (load_donut_model env g).1.
Proof.
  unfold consistent, load_donut_model, construct, needs_load. st_unfold.
  destruct g as [[p|] [m|]]; simpl; intros Hg; try (specialize (Hg eq_refl));
    try discriminate;
    destruct (DonutProcessor_from_pretrained env DONUT_ARTIFACT); simpl;
    try discriminate; auto;
    destruct (VisionEncoderDecoderModel_from_pretrained env DONUT_ARTIFACT); simpl;
    try discriminate; auto;
    destruct (cuda_is_available env); simpl; try discriminate; auto;
    destruct (model_to_cuda env _); simpl; discriminate.
Qed.

Lemma extract_fields_loop_consistent w image fs :
  forall (results : gmap string string) g,
    consistent g ->
    consistent (extract_fields_loop w image fs results g).1.
Proof.
  induction fs as [|field rest IH]; intros results g Hg; [exact Hg|].
  rewrite extract_fields_loop_cons. apply IH.
  unfold field_globals. now apply load_donut_model_consistent.
Qed.

(** The endpoint when the page image is there, and when it is not. *)
Lemma ai_structured_extract_image (io : @IO Image) w file image g g' res :
  request_image io file = inr image ->
  extract_all_structured_fields w image g = (g', inr res) ->
  ai_structured_extract io w file g = (g', inr {| content := res |}).
Proof.
  intros Himg Hrun. unfold ai_structured_extract. st_unfold.
  now rewrite Himg, Hrun.
Qed.

Lemma ai_structured_extract_no_image (io : @IO Image) w file e g :
  request_image io file = inl e ->
  ai_structured_extract io w file g = (g, inl (HTTPException 500 (str_exn io e))).
Proof.
  intros Himg. unfold ai_structured_extract. st_unfold. now rewrite Himg.
Qed.

(** X1.  The handles are cached: once a call to [load_donut_model] has
    returned, every later call, in whatever environment, returns the same
    two handles and leaves the globals alone. *)
Theorem load_donut_model_cached env g g' op om :
  load_donut_model env g = (g', inr (op, om)) ->
  forall env' : @Env Image Tensor,
    load_donut_model env' g' = (g', inr (op, om)).
Proof.
  intros H env'.
  destruct (load_donut_model_returns env g g' op om H) as (Hg' & -> & -> & _).
  now apply load_donut_model_ready.
Qed.

(** X2.  A failed load can be retried unless it failed on the GPU move:
    when a call made with [donut_model] unset raises, either the guard is
    still true, or both artifacts were fetched and stored and it was
    [donut_model.to("cuda")] that raised. *)
Theorem load_donut_model_failure_cases env g g' e :
  donut_model g = None ->
  load_donut_model env g = (g', inl e) ->
  (needs_load g' = true /\ donut_model g' = None) \/
  (exists p m,
     DonutProcessor_from_pretrained env DONUT_ARTIFACT = inr p /\
     VisionEncoderDecoderModel_from_pretrained env DONUT_ARTIFACT = inr m /\
     cuda_is_available env = true /\
     model_to_cuda env m = Some e /\
     g' = {| donut_processor := Some p; donut_model := Some m |}).
Proof.
  intros Hm. unfold load_donut_model, construct, needs_load. st_unfold.
  destruct g as [p0 m0]; simpl in *; subst m0. rewrite orb_true_r.
  destruct (DonutProcessor_from_pretrained env DONUT_ARTIFACT) as [e1|p]; simpl.
  { intros [= <- <-]. left. simpl. now rewrite orb_true_r. }
  destruct (VisionEncoderDecoderModel_from_pretrained env DONUT_ARTIFACT)
    as [e2|m]; simpl.
  { intros [= <- <-]. left. auto. }
  destruct (cuda_is_available env); simpl; [|discriminate].
  destruct (model_to_cuda env m) as [e3|] eqn:Hto; simpl; [|discriminate].
  intros [= <- <-]. right. exists p, m. auto.
Qed.

(** X3.  The model global is never set while the processor global is
    unset: a whole structured-extract request keeps that invariant, which
    holds at import time. *)
Theorem ai_structured_extract_consistent (io : @IO Image) w file g :
  consistent g ->
  consistent (ai_structured_extract io w file g).1.
Proof.
  intros Hg. destruct (request_image io file) as [e|image] eqn:Himg.
  - now rewrite (ai_structured_extract_no_image io w file e g Himg).
  - destruct (extract_fields_loop_dom w image fields ∅ g) as (g' & res & Hrun & _).
    rewrite (ai_structured_extract_image io w file image g g' res Himg Hrun).
    simpl. change g' with (g', @inr exn _ res).1. rewrite <- Hrun.
    now apply extract_fields_loop_consistent.
Qed.

(** X4.  Once both globals are set, a structured-extract request reads
    them and never writes them, whatever happens during the request. *)
Theorem ai_structured_extract_keeps_loaded (io : @IO Image) w file g :
  needs_load g = false ->
  (ai_structured_extract io w file g).1 = g.
Proof.
  intros Hg. destruct (request_image io file) as [e|image] eqn:Himg.
  - now rewrite (ai_structured_extract_no_image io w file e g Himg).
  - destruct (extract_fields_loop_dom w image fields ∅ g) as (g' & res & Hrun & _).
    rewrite (ai_structured_extract_image io w file image g g' res Himg Hrun).
    simpl. change g' with (g', @inr exn _ res).1. rewrite <- Hrun.
    now apply extract_fields_loop_ready.
Qed.

(** X5.  The model is built at most once per request: when the load made
    for the first field succeeds, the globals at the end of
    [extract_all_structured_fields] are the ones that load left, so no
    later field constructs anything. *)
Theorem extract_all_structured_fields_loads_once w image g g1 h :
  load_donut_model (w "product_name") g = (g1, inr h) ->
  (extract_all_structured_fields w image g).1 = g1.
Proof.
  intros Hload. destruct h as [op om].
  destruct (load_donut_model_returns _ _ _ _ _ Hload) as (Hg1 & _).
  unfold extract_all_structured_fields, fields.
  rewrite extract_fields_loop_cons. unfold field_globals. rewrite Hload.
  cbn [fst]. now apply extract_fields_loop_ready.
Qed.

(** X6.  Once the page image is there, the structured-extract endpoint
    cannot fail: whatever the model does, it answers with a dict of
    exactly the six field names. *)
Theorem ai_structured_extract_answers (io : @IO Image) w file image g :
  request_image io file = inr image ->
  exists g' res,
    ai_structured_extract io w file g = (g', inr {| content := res |}) /\
    dom res = list_to_set fields.
Proof.
  intros Himg.
  destruct (extract_fields_loop_dom w image fields ∅ g) as (g' & res & Hrun & Hdom).
  exists g', res. split.
  - now apply ai_structured_extract_image with image.
  - rewrite Hdom. set_solver.
Qed.

(** X7.  The only way the structured-extract endpoint fails is a failure
    to obtain the page image; the error is then always an
    [HTTPException] of status 500 carrying [str] of the cause, also when
    the cause is the [HTTPException(400)] raised for a PDF without pages,
    and the globals are untouched. *)
Theorem ai_structured_extract_failure (io : @IO Image) w file g g' e :
  ai_structured_extract io w file g = (g', inl e) ->
  g' = g /\
  exists cause,
    request_image io file = inl cause /\
    e = HTTPException 500 (str_exn io cause).
Proof.
  destruct (request_image io file) as [cause|image] eqn:Himg.
  - rewrite (ai_structured_extract_no_image io w file cause g Himg).
    intros [= <- <-]. eauto.
  - destruct (extract_fields_loop_dom w image fields ∅ g) as (g1 & res & Hrun & _).
    rewrite (ai_structured_extract_image io w file image g g1 res Himg Hrun).
    discriminate.
Qed.

End SingletonFacts.

Lemma load_donut_model_cached_witness :
  load_donut_model (Demo.env "") initial_globals
  = (Samples.loaded, inr (Some Demo.processor, Some Demo.model)) /\
  forall env' : @Env unit unit,
    load_donut_model env' Samples.loaded
    = (Samples.loaded, inr (Some Demo.processor, Some Demo.model)).
Proof.
  assert (H : load_donut_model (Demo.env "") initial_globals
              = (Samples.loaded, inr (Some Demo.processor, Some Demo.model)))
    by reflexivity.
  split; [exact H|].
  exact (load_donut_model_cached (Demo.env "") initial_globals Samples.loaded
           (Some Demo.processor) (Some Demo.model) H).
Defined.

Lemma load_donut_model_failure_cases_witness :
  donut_model initial_globals = None /\
  load_donut_model Samples.env_no_processor initial_globals
  = (initial_globals, inl (Exception "offline")) /\
  ((needs_load initial_globals = true /\ donut_model initial_globals = None) \/
   (exists p m,
      DonutProcessor_from_pretrained Samples.env_no_processor DONUT_ARTIFACT = inr p /\
      VisionEncoderDecoderModel_from_pretrained Samples.env_no_processor DONUT_ARTIFACT
      = inr m /\
      cuda_is_available Samples.env_no_processor = true /\
      model_to_cuda Samples.env_no_processor m = Some (Exception "offline") /\
      initial_globals = {| donut_processor := Some p; donut_model := Some m |})).
Proof.
  assert (Hg : donut_model initial_globals = None) by reflexivity.
  assert (H : load_donut_model Samples.env_no_processor initial_globals
              = (initial_globals, inl (Exception "offline"))) by reflexivity.
  split; [exact Hg|]. split; [exact H|].
  exact (load_donut_model_failure_cases Samples.env_no_processor initial_globals
           initial_globals (Exception "offline") Hg H).
Defined.

Lemma ai_structured_extract_consistent_witness :
  consistent initial_globals /\
  consistent
    (ai_structured_extract Demo.io Demo.world_load_fails Demo.png initial_globals).1.
Proof.
  assert (Hg : consistent initial_globals) by (intros _; reflexivity).
  split; [exact Hg|].
  exact (ai_structured_extract_consistent Demo.io Demo.world_load_fails Demo.png
           initial_globals Hg).
Defined.

Lemma ai_structured_extract_keeps_loaded_witness :
  needs_load Samples.loaded = false /\
  (ai_structured_extract Demo.io (fun _ => Samples.env_gpu) Demo.png Samples.loaded).1
  = Samples.loaded.
Proof.
  assert (Hg : needs_load Samples.loaded = false) by reflexivity.
  split; [exact Hg|].
  exact (ai_structured_extract_keeps_loaded Demo.io (fun _ => Samples.env_gpu)
           Demo.png Samples.loaded Hg).
Defined.

Lemma extract_all_structured_fields_loads_once_witness :
  load_donut_model (Demo.world "product_name") initial_globals
  = (Samples.loaded, inr (Some Demo.processor, Some Demo.model)) /\
  (extract_all_structured_fields Demo.world tt initial_globals).1 = Samples.loaded.
Proof.
  assert (H : load_donut_model (Demo.world "product_name") initial_globals
              = (Samples.loaded, inr (Some Demo.processor, Some Demo.model)))
    by reflexivity.
  split; [exact H|].
  exact (extract_all_structured_fields_loads_once Demo.world tt initial_globals
           Samples.loaded _ H).
Defined.

Lemma ai_structured_extract_answers_witness :
  request_image Demo.io Demo.png = inr tt /\
  exists g' res,
    ai_structured_extract Demo.io Demo.world Demo.png initial_globals
    = (g', inr {| content := res |}) /\
    dom res = list_to_set fields.
Proof.
  assert (H : request_image Demo.io Demo.png = inr tt) by reflexivity.
  split; [exact H|].
  exact (ai_structured_extract_answers Demo.io Demo.world Demo.png tt
           initial_globals H).
Defined.

Lemma ai_structured_extract_failure_witness :
  ai_structured_extract Samples.io_no_page Demo.world Samples.pdf initial_globals
  = (initial_globals, inl (HTTPException 500 "Failed to process file")) /\
  initial_globals = initial_globals /\
  exists cause,
    request_image Samples.io_no_page Samples.pdf = inl cause /\
    HTTPException 500 "Failed to process file"
    = HTTPException 500 (str_exn Samples.io_no_page cause).
Proof.
  assert (H : ai_structured_extract Samples.io_no_page Demo.world Samples.pdf
                initial_globals
              = (initial_globals, inl (HTTPException 500 "Failed to process file")))
    by reflexivity.
  split; [exact H|].
  exact (ai_structured_extract_failure Samples.io_no_page Demo.world Samples.pdf
           initial_globals initial_globals _ H).
Defined.

(** ** The text endpoint *)

Section TextEndpointFacts.

Context {Image : Type}.
Implicit Types (io : @IO Image) (ocr : @OcrBackend Image).



End TextEndpointFacts.


(** ** Prompts *)

Lemma dom_prompt_map : dom prompt_map = list_to_set fields.
Proof. unfold prompt_map. now rewrite dom_list_to_map_L. Qed.

(** X10.  The question table and the field list agree: a field name has
    an entry in [prompt_map] exactly when it is one of the six fields the
    orchestrator goes over, so the orchestrator never uses the fallback
    question. *)
Theorem prompt_map_covers_fields (field : string) :
  is_Some (prompt_map !! field) <-> field ∈ fields.
Proof.
  rewrite <- elem_of_dom, dom_prompt_map. apply elem_of_list_to_set.
Qed.

(** X11.  A field name outside the table gets the templated question
    built from the name itself. *)
Theorem prompt_for_unknown (field : string) :
  (field ∉ fields) ->
  prompt_for field = "What is the " +:+ field +:+ "?".
Proof.
  intros Hf. unfold prompt_for.
  assert (H : prompt_map !! field = None).
  { apply not_elem_of_dom. rewrite dom_prompt_map.
    now rewrite elem_of_list_to_set. }
  now rewrite H.
Qed.

Lemma prompt_for_unknown_witness :
  ("warranty_period" ∉ fields) /\
  prompt_for "warranty_period" = "What is the warranty_period?".
Proof.
  assert (H : "warranty_period" ∉ fields).
  { intros Hin. apply list_elem_of_In in Hin. simpl in Hin.
    repeat (destruct Hin as [Hin|Hin]; [discriminate Hin|]). exact Hin. }
  split; [exact H|].
  exact (prompt_for_unknown "warranty_period" H).
Defined.

(** ** Cleaning the decoded sequence *)

Section CleanSequenceFacts.

Import PyStr.

Lemma trimmed_strip s : trimmed (strip s).
Proof. exact (strip_trimmed s). Qed.

Lemma replace_from_absent old new s :
  contains old s = false -> replace_from old new 0 s = s.
Proof.
  induction s as [|c s IH]; [reflexivity|].
  intros H. cbn [contains] in H. apply orb_false_iff in H as [Hp Hs].
  cbn [replace_from]. rewrite Hp. now rewrite IH.
Qed.

Lemma replace_absent s old new :
  contains old s = false -> replace s old new = s.
Proof.
  intros H. destruct old as [|c old].
  - destruct s; discriminate H.
  - now apply replace_from_absent.
Qed.

Lemma after_close_tag tag body :
  lacks ">" tag = true -> lacks newline tag = true ->
  after_close (tag +:+ ">" +:+ body) = Some body.
Proof.
  induction tag as [|c tag IH]; simpl; [reflexivity|].
  intros H1 H2.
  apply andb_true_iff in H1 as [Hc1 Ht1].
  apply andb_true_iff in H2 as [Hc2 Ht2].
  apply negb_true_iff in Hc1, Hc2. rewrite Hc1, Hc2. now apply IH.
Qed.

Lemma length_replace_from old k s :
  (String.length (replace_from old "" k s) <= String.length s)%nat.
Proof.
  revert k. induction s as [|c s IH]; intros k; [reflexivity|].
  cbn [replace_from]. destruct k as [|k].
  - destruct (String.prefix old (String c s)); cbn [String.length].
    + specialize (IH (Nat.pred (String.length old))).
      change ("" +:+ replace_from old "" (Nat.pred (String.length old)) s)
        with (replace_from old "" (Nat.pred (String.length old)) s).
      lia.
    + specialize (IH 0%nat). lia.
  - specialize (IH k). cbn [String.length]. lia.
Qed.

Lemma intersperse_all_empty s : intersperse_all "" s = s.
Proof. induction s as [|c s IH]; simpl; [reflexivity|now rewrite IH]. Qed.

Lemma length_replace_empty s old :
  (String.length (replace s old "") <= String.length s)%nat.
Proof.
  destruct old as [|c old]; simpl.
  - now rewrite intersperse_all_empty.
  - apply length_replace_from.
Qed.

Lemma length_after_close s r :
  after_close s = Some r -> (String.length r < String.length s)%nat.
Proof.
  revert r. induction s as [|c s IH]; intros r; simpl; [discriminate|].
  destruct (Ascii.eqb c ">"); [intros [= <-]; lia|].
  destruct (Ascii.eqb c newline); [discriminate|].
  intros H. specialize (IH r H). lia.
Qed.

Lemma length_re_sub_tag_once s :
  (String.length (re_sub_tag_once s) <= String.length s)%nat.
Proof.
  induction s as [|c s IH]; simpl; [reflexivity|].
  destruct (Ascii.eqb c "<"); simpl; [|lia].
  destruct (after_close s) as [r|] eqn:Hr; simpl; [|lia].
  apply length_after_close in Hr. lia.
Qed.

Lemma length_lstrip s : (String.length (lstrip s) <= String.length s)%nat.
Proof.
  induction s as [|c s IH]; simpl; [reflexivity|].
  destruct (is_space c); simpl; lia.
Qed.

Lemma length_rstrip s : (String.length (rstrip s) <= String.length s)%nat.
Proof.
  induction s as [|c s IH]; simpl; [reflexivity|].
  destruct (rstrip s); [destruct (is_space c)|]; simpl in *; lia.
Qed.

(** The cleaned sequence never starts or ends with whitespace, whatever
    the decoded sequence and the markers are. *)
Lemma clean_sequence_trimmed (processor : DonutProcessor) (sequence : string) :
  trimmed (clean_sequence processor sequence).
Proof. unfold clean_sequence. apply trimmed_strip. Qed.

(** X13.  Cleaning only deletes: the cleaned sequence is never longer
    than the decoded one. *)
Theorem clean_sequence_length (processor : DonutProcessor) (sequence : string) :
  (String.length (clean_sequence processor sequence) <= String.length sequence)%nat.
Proof.
  unfold clean_sequence, strip.
  pose proof (length_replace_empty sequence (eos_token processor)) as H1.
  pose proof (length_replace_empty
                (replace sequence (eos_token processor) "") (pad_token processor))
    as H2.
  set (s2 := replace (replace sequence (eos_token processor) "")
               (pad_token processor) "") in *.
  pose proof (length_re_sub_tag_once s2) as H3.
  pose proof (length_lstrip (re_sub_tag_once s2)) as H4.
  pose proof (length_rstrip (lstrip (re_sub_tag_once s2))) as H5.
  lia.
Qed.

(** X14.  When the decoded sequence opens with a tag (no [">"] and no
    newline inside it) and holds neither marker, cleaning returns the rest
    of the sequence, stripped: the tag that goes is the one in front. *)
Theorem clean_sequence_leading_tag (processor : DonutProcessor) (tag body : string) :
  let sequence := "<" +:+ tag +:+ ">" +:+ body in
  lacks ">" tag = true ->
  lacks newline tag = true ->
  contains (eos_token processor) sequence = false ->
  contains (pad_token processor) sequence = false ->
  clean_sequence processor sequence = strip body.
Proof.
  intros sequence Ht1 Ht2 Heos Hpad. unfold clean_sequence.
  rewrite (replace_absent sequence _ _ Heos), (replace_absent sequence _ _ Hpad).
  change sequence with (String "<" (tag +:+ ">" +:+ body)).
  cbn [re_sub_tag_once]. change (Ascii.eqb "<" "<") with true. cbn iota.
  now rewrite (after_close_tag tag body Ht1 Ht2).
Qed.

End CleanSequenceFacts.

Lemma clean_sequence_leading_tag_witness :
  lacks ">" "s_answer" = true /\
  lacks PyStr.newline "s_answer" = true /\
  PyStr.contains (eos_token Demo.processor) "<s_answer> 42 " = false /\
  PyStr.contains (pad_token Demo.processor) "<s_answer> 42 " = false /\
  clean_sequence Demo.processor "<s_answer> 42 " = "42".
Proof.
  assert (H1 : lacks ">" "s_answer" = true) by reflexivity.
  assert (H2 : lacks PyStr.newline "s_answer" = true) by reflexivity.
  assert (H3 : PyStr.contains (eos_token Demo.processor) "<s_answer> 42 " = false)
    by reflexivity.
  assert (H4 : PyStr.contains (pad_token Demo.processor) "<s_answer> 42 " = false)
    by reflexivity.
  split; [exact H1|]. split; [exact H2|]. split; [exact H3|]. split; [exact H4|].
  exact (clean_sequence_leading_tag Demo.processor "s_answer" " 42 " H1 H2 H3 H4).
Defined.

(** ** Values returned by the orchestrator *)

Section FieldValueFacts.

Context {Image Tensor : Type}.
Implicit Types (env : @Env Image Tensor) (w : @World Image Tensor)
  (image : Image) (g : Globals).

(** What the [try] block returns, when it returns, is a cleaned decoded
    sequence. *)
Lemma donut_answer_cleaned env image field g :
  match (donut_answer env image field g).2 with
  | inl _ => True
  | inr v => exists p d, v = clean_sequence p d
  end.
Proof.
  unfold donut_answer, maybe_to_cuda, index0.
  unfold St.bind at 1.
  destruct (load_donut_model env g) as [g' [e|[op om]]]; simpl; [auto|].
  st_unfold.
  destruct op as [p|]; simpl; [|auto].
  destruct (processor_call env p image) as [?|pv]; simpl; [auto|].
  destruct (cuda_is_available env); simpl.
  - destruct (tensor_to_cuda env pv) as [?|pv']; simpl; [auto|].
    destruct (tokenizer_call env p _) as [?|ids]; simpl; [auto|].
    destruct (tensor_to_cuda env ids) as [?|ids']; simpl; [auto|].
    destruct om as [m|]; simpl; [|auto].
    destruct (model_generate env m pv' _) as [?|sq]; simpl; [auto|].
    destruct (batch_decode env p sq) as [?|[|d ds]]; simpl; eauto.
  - destruct (tokenizer_call env p _) as [?|ids]; simpl; [auto|].
    destruct om as [m|]; simpl; [|auto].
    destruct (model_generate env m pv _) as [?|sq]; simpl; [auto|].
    destruct (batch_decode env p sq) as [?|[|d ds]]; simpl; eauto.
Qed.

(** A field value is empty or a cleaned decoded sequence. *)
Lemma field_value_cases env image field g :
  field_value env image field g = "" \/
  exists p d, field_value env image field g = clean_sequence p d.
Proof.
  pose proof (donut_answer_cleaned env image field g) as H.
  unfold field_value.
  destruct ((donut_answer env image field g).2) as [e|v]; auto.
Qed.

Lemma field_value_trimmed env image field g :
  trimmed (field_value env image field g).
Proof.
  destruct (field_value_cases env image field g) as [->|(p & d & ->)].
  - exact I.
  - unfold clean_sequence. apply trimmed_strip.
Qed.

(** What holds of every field value and of every value already in the
    dict holds of every value of the final dict. *)
Lemma extract_fields_loop_values (P : string -> Prop) w image fs :
  (forall field g, P (field_value (w field) image field g)) ->
  forall (results : gmap string string) g g' res,
    map_Forall (fun _ v => P v) results ->
    extract_fields_loop w image fs results g = (g', inr res) ->
    map_Forall (fun _ v => P v) res.
Proof.
  intros HP. induction fs as [|field rest IH]; intros results g g' res Hres Hrun.
  - simpl in Hrun. injection Hrun as <- <-. exact Hres.
  - rewrite extract_fields_loop_cons in Hrun.
    eapply IH; [|exact Hrun].
    apply map_Forall_insert_2; [apply HP|exact Hres].
Qed.

(** X12.  Every value of the dict returned by
    [extract_all_structured_fields] is free of leading and trailing
    whitespace, whatever the model generated. *)
Theorem extract_all_structured_fields_trimmed w image g g' res field value :
  extract_all_structured_fields w image g = (g', inr res) ->
  res !! field = Some value ->
  trimmed value.
Proof.
  intros Hrun Hv.
  assert (H : map_Forall (fun _ v => trimmed v) res).
  { eapply (extract_fields_loop_values trimmed w image fields);
      [|apply map_Forall_empty|exact Hrun].
    intros f g0. apply field_value_trimmed. }
  exact (H field value Hv).
Qed.

(** X15.  The success path of one field.  When the handles are there and
    every call succeeds, the value is the first decoded sequence, cleaned;
    generation is asked for greedy decoding ([num_beams = 1]) bounded by
    the decoder's [max_position_embeddings], with the unknown token
    forbidden, on the seed built from the field's question. *)
Theorem extract_structured_with_donut_success
    env image field g g' p m pv pv' ids ids' sequences d rest :
  load_donut_model env g = (g', inr (Some p, Some m)) ->
  processor_call env p image = inr pv ->
  (if cuda_is_available env then tensor_to_cuda env pv else inr pv) = inr pv' ->
  tokenizer_call env p (decoder_seed (prompt_for field)) = inr ids ->
  (if cuda_is_available env then tensor_to_cuda env ids else inr ids) = inr ids' ->
  model_generate env m pv'
    {| decoder_input_ids := ids';
       max_length := max_position_embeddings m;
       early_stopping := true;
       gen_pad_token_id := pad_token_id p;
       gen_eos_token_id := eos_token_id p;
       use_cache := true;
       num_beams := 1;
       bad_words_ids := [[unk_token_id p]];
       return_dict_in_generate := true |} = inr sequences ->
  batch_decode env p sequences = inr (d :: rest) ->
  extract_structured_with_donut env image field g
  = (g', inr (clean_sequence p d)).
Proof.
  intros Hload Hpv Hpv' Hids Hids' Hgen Hdec.
  rewrite extract_structured_with_donut_eq.
  unfold field_globals, field_value, donut_answer, maybe_to_cuda, index0.
  unfold St.bind at 1. rewrite Hload. cbn [fst snd]. st_unfold. simpl.
  rewrite Hpv. simpl.
  destruct (cuda_is_available env); simpl in *.
  - rewrite Hpv'. simpl. rewrite Hids. simpl. rewrite Hids'. simpl.
    rewrite Hgen. simpl. now rewrite Hdec.
  - injection Hpv' as <-. injection Hids' as <-.
    rewrite Hids. simpl. rewrite Hgen. simpl. now rewrite Hdec.
Qed.

End FieldValueFacts.

Lemma extract_all_structured_fields_trimmed_witness :
  (exists res,
     extract_all_structured_fields (fun _ => Samples.env_gpu) tt initial_globals
     = ({| donut_processor := Some Demo.processor;
           donut_model := Some (to_device Cuda Demo.model) |}, inr res) /\
     res !! "retailer" = Some "42") /\
  trimmed "42".
Proof.
  assert (Hrun : exists res,
     extract_all_structured_fields (fun _ => Samples.env_gpu) tt initial_globals
     = ({| donut_processor := Some Demo.processor;
           donut_model := Some (to_device Cuda Demo.model) |}, inr res) /\
     res !! "retailer" = Some "42").
  { eexists. split; [vm_compute; reflexivity|]. vm_compute. reflexivity. }
  split; [exact Hrun|].
  destruct Hrun as (res & Hrun & Hv).
  exact (extract_all_structured_fields_trimmed (fun _ => Samples.env_gpu) tt
           initial_globals _ res "retailer" "42" Hrun Hv).
Defined.

Lemma extract_structured_with_donut_success_witness :
  extract_structured_with_donut Samples.env_gpu tt "order_id" initial_globals
  = ({| donut_processor := Some Demo.processor;
        donut_model := Some (to_device Cuda Demo.model) |},
     inr (clean_sequence Demo.processor "<s_answer> 42 ")).
Proof.
  apply (extract_structured_with_donut_success Samples.env_gpu tt "order_id"
           initial_globals _ Demo.processor (to_device Cuda Demo.model)
           tt tt tt tt tt "<s_answer> 42 " ["unused"]); reflexivity.
Defined.

(** ** More on text recognition *)

Section MoreRecognitionFacts.

Context {Image : Type}.
Implicit Types (ocr : @OcrBackend Image) (image : Image).

Lemma extract_text_with_paddleocr_none ocr image result :
  ocr image true = inr result ->
  detected_lines result = [] ->
  extract_text_with_paddleocr ocr image = inr {| text := ""; confidence := 0 |}.
Proof.
  intros Hocr Hlines. unfold extract_text_with_paddleocr. res_unfold.
  rewrite Hocr.
  destruct result as [|[[|l ls]|] rest]; simpl in Hlines;
    try discriminate; reflexivity.
Qed.

(** The result as a function of the texts and confidences of the lines. *)
Lemma extract_text_with_paddleocr_lines_eq ocr image result :
  ocr image true = inr result ->
  extract_text_with_paddleocr ocr image
  = inr (match detected_lines result with
         | [] => {| text := ""; confidence := 0 |}
         | _ :: _ =>
             {| text := PyStr.join PyStr.NL (map line_text (detected_lines result));
                confidence :=
                  py_round
                    (float_mean (map line_confidence (detected_lines result))) 4 |}
         end).
Proof.
  intros Hocr. destruct (detected_lines result) as [|line lines] eqn:Hlines.
  - now apply extract_text_with_paddleocr_none with result.
  - exact (extract_text_with_paddleocr_some ocr image result line lines Hocr Hlines).
Qed.

(** X18.  Only the texts and confidences of the first entry matter: two
    backend answers whose first entries list the same texts and the same
    confidences give the same result, whatever the boxes and whatever
    follows the first entry. *)
Theorem extract_text_with_paddleocr_ignores_geometry
    ocr1 ocr2 image1 image2 result1 result2 :
  ocr1 image1 true = inr result1 ->
  ocr2 image2 true = inr result2 ->
  map line_text (detected_lines result1) = map line_text (detected_lines result2) ->
  map line_confidence (detected_lines result1)
  = map line_confidence (detected_lines result2) ->
  extract_text_with_paddleocr ocr1 image1 = extract_text_with_paddleocr ocr2 image2.
Proof.
  intros H1 H2 Ht Hc.
  rewrite (extract_text_with_paddleocr_lines_eq ocr1 image1 result1 H1).
  rewrite (extract_text_with_paddleocr_lines_eq ocr2 image2 result2 H2).
  rewrite Ht, Hc.
  destruct (detected_lines result1) as [|l1 ls1], (detected_lines result2) as [|l2 ls2];
    try discriminate; reflexivity.
Qed.

End MoreRecognitionFacts.

Lemma extract_text_with_paddleocr_ignores_geometry_witness :
  map line_text Demo.two_lines = map line_text Samples.two_lines_boxed /\
  map line_confidence Demo.two_lines = map line_confidence Samples.two_lines_boxed /\
  extract_text_with_paddleocr Demo.ocr_two_lines tt
  = extract_text_with_paddleocr Samples.ocr_boxed tt.
Proof.
  split; [reflexivity|]. split; [reflexivity|].
  apply (extract_text_with_paddleocr_ignores_geometry
           Demo.ocr_two_lines Samples.ocr_boxed tt tt
           [Some Demo.two_lines] [Some Samples.two_lines_boxed; Some Demo.one_line]);
    reflexivity.
Defined.

